(** * A model of the Agora Python REST client (examples/python/client.py)

    The client is an [AgoraClient] dataclass whose methods issue one HTTP
    request each through a [requests.Session] and update the fields
    [_token] and [_expires_at].  We embed it in a small state and error
    monad: the state holds the client object, the state of the relay on
    the other side of the wire and the log of requests the session has
    sent; errors are the Python exceptions the methods can raise. *)

From Stdlib Require Import String Ascii ZArith List Bool Lia.
From Stdlib Require Import Init.Byte Strings.Byte HexString.
Import ListNotations.
Open Scope string_scope.
#[local] Set Warnings "-register-all".
Open Scope Z_scope.

(** ** JSON values as the Python [json] module returns them *)

(** [None] is [JNull]; a [dict] is an association list in insertion
    order (the order Python dictionaries keep). *)
Inductive json : Type :=
| JNull
| JBool (b : bool)
| JNum (z : Z)
| JStr (s : string)
| JArr (l : list json)
| JObj (kvs : list (string * json)).

(** Python truthiness of a JSON-derived value. *)
Definition py_truthy (j : json) : bool :=
  match j with
  | JNull => false
  | JBool b => b
  | JNum z => negb (z =? 0)
  | JStr s => negb (String.eqb s "")
  | JArr l => match l with [] => false | _ => true end
  | JObj kvs => match kvs with [] => false | _ => true end
  end.

(** [d.get(k)] on a dictionary: the value stored under [k]. *)
Fixpoint dict_get (k : string) (kvs : list (string * json)) : option json :=
  match kvs with
  | [] => None
  | (k', v) :: rest => if String.eqb k k' then Some v else dict_get k rest
  end.

(** [d[k] = v]: overwrite in place if present, append otherwise. *)
Fixpoint dict_set (k : string) (v : json) (kvs : list (string * json))
  : list (string * json) :=
  match kvs with
  | [] => [(k, v)]
  | (k', v') :: rest =>
      if String.eqb k k' then (k', v) :: rest else (k', v') :: dict_set k v rest
  end.

(** ** Python exceptions raised by the client *)

Inductive exn : Type :=
| HTTPError (status : Z)          (* requests.HTTPError from raise_for_status *)
| TransportError                  (* requests.ConnectionError, Timeout, ... *)
| JSONDecodeError                 (* resp.json() on a non-JSON body *)
| KeyError (k : string)
| TypeError
| AttributeError
| RuntimeError (msg : string).

(** ** HTTP requests and responses *)

Inductive method : Type := GET | POST | DELETE.

Record request : Type := mkRequest {
  req_method : method;
  req_url : string;
  req_headers : list (string * string);
  req_json : option json     (* the [json=] argument, if any *)
}.

Record response : Type := mkResponse {
  status_code : Z;
  resp_body : option json    (* [None]: the body is not valid JSON *)
}.

(** [Response.raise_for_status] of [requests]: an [HTTPError] for a
    client error (4xx) or a server error (5xx), nothing otherwise. *)
Definition raise_for_status_check (r : response) : option exn :=
  if (400 <=? status_code r) && (status_code r <? 600)
  then Some (HTTPError (status_code r)) else None.

(** ** Key pairs *)

Record KeyPair : Type := mkKeyPair {
  public_key : string;   (* hex-encoded SPKI DER *)
  private_key : string   (* hex-encoded PKCS8 DER *)
}.

Definition hex_digit (n : nat) : ascii :=
  match n with
  | 0%nat => "0" | 1%nat => "1" | 2%nat => "2" | 3%nat => "3"
  | 4%nat => "4" | 5%nat => "5" | 6%nat => "6" | 7%nat => "7"
  | 8%nat => "8" | 9%nat => "9" | 10%nat => "a" | 11%nat => "b"
  | 12%nat => "c" | 13%nat => "d" | 14%nat => "e" | _ => "f"
  end%char.

(** [bytes.hex()]: two lower-case hex digits per byte. *)
Fixpoint bytes_hex (bs : list byte) : string :=
  match bs with
  | [] => EmptyString
  | b :: rest =>
      let n := Byte.to_nat b in
      String (hex_digit (Nat.div n 16)) (String (hex_digit (Nat.modulo n 16)) (bytes_hex rest))
  end.

(** The value of a lower-case hex digit; the inverse of [hex_digit] on
    0..15, used to show that [bytes_hex] loses nothing. *)
Definition hex_val (c : ascii) : nat :=
  match c with
  | "0" => 0 | "1" => 1 | "2" => 2 | "3" => 3 | "4" => 4 | "5" => 5
  | "6" => 6 | "7" => 7 | "8" => 8 | "9" => 9 | "a" => 10 | "b" => 11
  | "c" => 12 | "d" => 13 | "e" => 14 | "f" => 15 | _ => 0
  end%char%nat.

(** The cryptography package is an external collaborator: an Ed25519
    private key, its public key, and the two DER serialisations. *)
Section KeyGen.
Variable Ed25519PrivateKey Ed25519PublicKey : Type.
Variable public_key_of : Ed25519PrivateKey -> Ed25519PublicKey.
Variable spki_der : Ed25519PublicKey -> list byte.
Variable pkcs8_der : Ed25519PrivateKey -> list byte.

(** [generate_key_pair], given the freshly generated private key. *)
Definition generate_key_pair (private_key_obj : Ed25519PrivateKey) : KeyPair :=
  let public_key_obj := public_key_of private_key_obj in
  let public_hex := bytes_hex (spki_der public_key_obj) in
  let private_hex := bytes_hex (pkcs8_der private_key_obj) in
  mkKeyPair public_hex private_hex.
End KeyGen.

(** ** The client object *)

Record AgoraClient : Type := mkClient {
  relay_url : string;
  key_pair : KeyPair;
  name : option string;
  _token : json;         (* str | None, as stored from the response *)
  _expires_at : json     (* int | None *)
}.

Definition new_client (url : string) (kp : KeyPair) (nm : option string) : AgoraClient :=
  mkClient url kp nm JNull JNull.

Definition set_token (c : AgoraClient) (t : json) : AgoraClient :=
  mkClient (relay_url c) (key_pair c) (name c) t (_expires_at c).

Definition set_expires_at (c : AgoraClient) (e : json) : AgoraClient :=
  mkClient (relay_url c) (key_pair c) (name c) (_token c) e.

(** Python truthiness of an [str | None] argument. *)
Definition opt_str_truthy (o : option string) : bool :=
  match o with Some s => negb (String.eqb s "") | None => false end.

(** The [inReplyTo] value that [send] with [in_reply_to] posts, [null]
    when the key is left out of the body. *)
Definition in_reply_to_json (o : option string) : json :=
  match o with Some s => if opt_str_truthy o then JStr s else JNull | None => JNull end.

(** ** The relay *)

(** Modelled from the spec: the relay service (its session manager,
    identity registry, message router and inbound queues, spec sections 3,
    4 and 6) is code of this repository that is not part of the Python
    client.  This model follows the spec's words: registration checks that
    the submitted private key corresponds to the public key ([key_ok]),
    issues a fresh token expiring [ttl] after the relay's clock and
    revokes the key's prior session; a token is accepted only while the
    clock is before its [expiresAt] (lazy expiry, spec 4.1 and 5); [send]
    requires a known recipient and appends a message stamped with the
    clock to its FIFO inbound queue; [GET /v1/messages] drains the
    caller's whole queue; [disconnect] deletes the session.  The clock is
    part of the relay state; time passes between requests by [set_clock]. *)
Module Relay.

Record relay : Type := mkRelay {
  registry : list (string * json);          (* public key -> identity record *)
  sessions : list (string * (string * Z));  (* token -> (public key, expiresAt) *)
  queues : list (string * list json);       (* public key -> inbound queue *)
  next_id : nat;                            (* fresh tokens and message ids *)
  clock : Z                                 (* the relay's current time *)
}.

Definition set_clock (t : Z) (r : relay) : relay :=
  mkRelay (registry r) (sessions r) (queues r) (next_id r) t.

Fixpoint lookup {A} (k : string) (l : list (string * A)) : option A :=
  match l with
  | [] => None
  | (k', v) :: rest => if String.eqb k k' then Some v else lookup k rest
  end.

Fixpoint update {A} (k : string) (v : A) (l : list (string * A)) : list (string * A) :=
  match l with
  | [] => [(k, v)]
  | (k', v') :: rest => if String.eqb k k' then (k', v) :: rest else (k', v') :: update k v rest
  end.

Definition queue_of (pk : string) (r : relay) : list json :=
  match lookup pk (queues r) with Some q => q | None => [] end.

Definition reply (code : Z) (body : json) (r : relay) : (exn + response) * relay :=
  (inr (mkResponse code (Some body)), r).

Definition unauthorized (r : relay) : (exn + response) * relay :=
  reply 401 (JObj [("error", JStr "Unauthorized")]) r.

Definition validation_error (r : relay) : (exn + response) * relay :=
  reply 400 (JObj [("error", JStr "ValidationError")]) r.

(** A session is live while the clock is before its [expiresAt]. *)
Definition live (r : relay) (exp : Z) : bool := Z.ltb (clock r) exp.

(** [authenticate(token)] from the Authorization header: missing, unknown
    and expired tokens are refused. *)
Definition authenticate (hs : list (string * string)) (r : relay) : option string :=
  match lookup "Authorization" hs with
  | Some v =>
      if String.prefix "Bearer " v
      then match lookup (substring 7 (String.length v - 7) v) (sessions r) with
           | Some (pk, exp) => if live r exp then Some pk else None
           | None => None
           end
      else None
  | None => None
  end.

Definition str_field (k : string) (body : option json) : option string :=
  match body with
  | Some (JObj kvs) => match dict_get k kvs with Some (JStr s) => Some s | _ => None end
  | _ => None
  end.

Definition field_or_null (k : string) (body : option json) : json :=
  match body with
  | Some (JObj kvs) => match dict_get k kvs with Some v => v | None => JNull end
  | _ => JNull
  end.

(** The message record enqueued by [send], stamped with [enqueuedAt]. *)
Definition message (id from to : string) (ty payload irt : json) (at_ : Z) : json :=
  JObj (app [("id", JStr id); ("from", JStr from); ("to", JStr to);
             ("type", ty); ("payload", payload)]
            (app (match irt with JNull => [] | _ => [("inReplyTo", irt)] end)
                 [("enqueuedAt", JNum at_)])).

Definition do_send (sender : string) (body : option json) (r : relay)
  : (exn + response) * relay :=
  match str_field "to" body with
  | Some to =>
      match lookup to (registry r) with
      | Some _ =>
          let mid := "msg-" ++ HexString.of_nat (next_id r) in
          let m := message mid sender to (field_or_null "type" body)
                     (field_or_null "payload" body) (field_or_null "inReplyTo" body)
                     (clock r) in
          reply 200 (JObj [("messageId", JStr mid)])
            (mkRelay (registry r) (sessions r)
               (update to (app (queue_of to r) [m]) (queues r)) (S (next_id r)) (clock r))
      | None => reply 404 (JObj [("error", JStr "UnknownRecipient")]) r
      end
  | None => validation_error r
  end.

(** The agents holding a live session. *)
Definition online (r : relay) : list json :=
  flat_map (fun e => match lookup (fst e) (registry r) with
                     | Some i => if existsb (fun s => String.eqb (fst (snd s)) (fst e)
                                                      && live r (snd (snd s))) (sessions r)
                                 then [i] else []
                     | None => []
                     end) (registry r).

Section Handle.
(** [key_ok sk pk]: the private key [sk] corresponds to the public key
    [pk]; a cryptographic fact the relay decides. *)
Variable key_ok : string -> string -> bool.
(** The lifetime of a session token. *)
Variable ttl : Z.

Definition do_register (pk : string) (body : option json) (r : relay)
  : (exn + response) * relay :=
  let tok := "tok-" ++ HexString.of_nat (next_id r) in
  let exp := clock r + ttl in
  let ident := JObj [("publicKey", JStr pk); ("name", field_or_null "name" body);
                     ("metadata", field_or_null "metadata" body)] in
  let sess := (tok, (pk, exp)) :: filter (fun e => negb (String.eqb (fst (snd e)) pk)) (sessions r) in
  reply 200 (JObj [("token", JStr tok); ("expiresAt", JNum exp)])
    (mkRelay (update pk ident (registry r)) sess (queues r) (S (next_id r)) (clock r)).

(** The relay's answer to one request of a client whose base URL is
    [base].  A private key that does not correspond to the public key is
    refused as a [ValidationError] (the spec names no error kind for it). *)
Definition handle (base : string) (r : relay) (q : request) : (exn + response) * relay :=
  let path p := String.eqb (req_url q) (base ++ p) in
  match req_method q with
  | POST =>
      if path "/v1/register" then
        match str_field "publicKey" (req_json q), str_field "privateKey" (req_json q) with
        | Some pk, Some sk => if key_ok sk pk then do_register pk (req_json q) r
                              else validation_error r
        | _, _ => validation_error r
        end
      else if path "/v1/send" then
        match authenticate (req_headers q) r with
        | Some sender => do_send sender (req_json q) r
        | None => unauthorized r
        end
      else reply 404 (JObj []) r
  | GET =>
      if path "/v1/messages" then
        match authenticate (req_headers q) r with
        | Some pk =>
            reply 200 (JObj [("messages", JArr (queue_of pk r))])
              (mkRelay (registry r) (sessions r) (update pk [] (queues r)) (next_id r) (clock r))
        | None => unauthorized r
        end
      else if path "/v1/peers" then
        match authenticate (req_headers q) r with
        | Some _ => reply 200 (JObj [("peers", JArr (online r))]) r
        | None => unauthorized r
        end
      else reply 404 (JObj []) r
  | DELETE =>
      if path "/v1/disconnect" then
        match authenticate (req_headers q) r with
        | Some _ =>
            let tok := match lookup "Authorization" (req_headers q) with
                       | Some v => substring 7 (String.length v - 7) v | None => "" end in
            reply 200 (JObj [])
              (mkRelay (registry r) (filter (fun e => negb (String.eqb (fst e) tok)) (sessions r))
                 (queues r) (next_id r) (clock r))
        | None => unauthorized r
        end
      else reply 404 (JObj []) r
  end.

End Handle.

(** A relay with no agent, started at time [0]. *)
Definition empty : relay := mkRelay [] [] [] 0 0.

End Relay.

(** ** Fixed relays used to exercise the client on concrete inputs *)

(** A relay that answers every request with the same response. *)
Definition const_transport (resp : response) (u : unit) (q : request)
  : (exn + response) * unit := (inr resp, u).

(** A relay whose answers are scripted by a counter of requests: the
    [n]-th request gets [script n]. *)
Definition scripted_transport (script : nat -> response) (n : nat) (q : request)
  : (exn + response) * nat := (inr (script n), S n).

(** A registered client holding the token ["t"]. *)
Definition demo_client : AgoraClient :=
  mkClient "http://relay" (mkKeyPair "pk-a" "sk-a") None (JStr "t") JNull.

(** [str()] on non-string tokens, for runs where only strings are stored. *)
Definition str_none (j : json) : string := "".

(** A relay that accepts a first registration, answers a second one with
    a token but no [expiresAt], and then lists no peers. *)
Definition script_partial_register (n : nat) : response :=
  match n with
  | 0%nat => mkResponse 200 (Some (JObj [("token", JStr "t1"); ("expiresAt", JNum 100)]))
  | 1%nat => mkResponse 200 (Some (JObj [("token", JStr "t2")]))
  | _ => mkResponse 200 (Some (JObj [("peers", JArr [])]))
  end.

(** A relay that answers a first registration with a token but no
    [expiresAt], and then lists no peers. *)
Definition script_first_register_partial (n : nat) : response :=
  match n with
  | 0%nat => mkResponse 200 (Some (JObj [("token", JStr "t2")]))
  | _ => mkResponse 200 (Some (JObj [("peers", JArr [])]))
  end.

(** ** Python built-ins used by [demo] on JSON values *)

(** [d[k]] outside the monad. *)
Definition py_getitem (d : json) (k : string) : exn + json :=
  match d with
  | JObj kvs => match dict_get k kvs with Some v => inr v | None => inl (KeyError k) end
  | _ => inl TypeError
  end.

(** [d.get(k, default)] outside the monad. *)
Definition py_get (d : json) (k : string) (default : json) : exn + json :=
  match d with
  | JObj kvs => match dict_get k kvs with Some v => inr v | None => inr default end
  | _ => inl AttributeError
  end.

(** [x[:20]], whose value is only printed: strings and lists slice; on
    [None], numbers and booleans it raises [TypeError], as it does on a
    dict before Python 3.12 (3.12 raises [KeyError] there). *)
Definition py_head20 (x : json) : exn + unit :=
  match x with JStr _ | JArr _ => inr tt | _ => inl TypeError end.

(** [len(x)], whose value is only printed. *)
Definition py_len (x : json) : exn + unit :=
  match x with JStr _ | JArr _ | JObj _ => inr tt | _ => inl TypeError end.

Fixpoint string_chars (s : string) : list json :=
  match s with EmptyString => [] | String c r => JStr (String c EmptyString) :: string_chars r end.

(** [for x in j]: the items a loop over a JSON value visits. *)
Definition py_iter (j : json) : exn + list json :=
  match j with
  | JArr l => inr l
  | JStr s => inr (string_chars s)
  | JObj kvs => inr (map (fun kv => JStr (fst kv)) kvs)
  | _ => inl TypeError
  end.

(** A loop body run on every item, stopping at the first exception. *)
Fixpoint for_each (f : json -> exn + unit) (l : list json) : exn + unit :=
  match l with
  | [] => inr tt
  | x :: rest => match f x with inl e => inl e | inr _ => for_each f rest end
  end.

(** The body of [demo]'s loop over the peers. *)
Definition demo_peer_line (p : json) : exn + unit :=
  match py_get p "name" (JStr "anonymous") with
  | inl e => inl e
  | inr _ => match py_getitem p "publicKey" with inl e => inl e | inr k => py_head20 k end
  end.

(** The body of [demo]'s loop over the polled messages. *)
Definition demo_message_lines (msg : json) : exn + unit :=
  match py_getitem msg "from" with
  | inl e => inl e
  | inr f =>
      match py_head20 f with
      | inl e => inl e
      | inr _ =>
          match py_getitem msg "type" with
          | inl e => inl e
          | inr _ => match py_getitem msg "payload" with inl e => inl e | inr _ => inr tt end
          end
      end
  end.

(** ** The state and error monad of a client method *)

Section Client.

(** The relay on the other side of the wire: its state and how it answers
    one request (after [requests] has followed any redirect); [inl] is a
    transport failure raised by [requests]. *)
Variable relay_state : Type.
Variable transport : relay_state -> request -> (exn + response) * relay_state.

(** [str()] of a stored token that is not a string (an int, a list, ...);
    on strings [str] is the identity, see [py_str]. *)
Variable str_nonstring : json -> string.

Definition py_str (j : json) : string :=
  match j with JStr s => s | _ => str_nonstring j end.

Record st : Type := mkSt {
  client : AgoraClient;
  relay : relay_state;
  sent : list request        (* every request the session has sent *)
}.

Definition M (A : Type) : Type := st -> (exn + A) * st.

Definition ret {A} (a : A) : M A := fun s => (inr a, s).
Definition raise {A} (e : exn) : M A := fun s => (inl e, s).
Definition bind {A B} (m : M A) (k : A -> M B) : M B :=
  fun s => match m s with
           | (inl e, s') => (inl e, s')
           | (inr a, s') => k a s'
           end.

Notation "x <- m ;; k" := (bind m (fun x => k))
  (at level 61, m at next level, right associativity).
Notation "m ;; k" := (bind m (fun _ => k))
  (at level 61, right associativity).

Definition get_self : M AgoraClient := fun s => (inr (client s), s).
Definition put_self (c : AgoraClient) : M unit :=
  fun s => (inr tt, mkSt c (relay s) (sent s)).

(** [self._session.<method>(...)]: the request is sent, the relay answers. *)
Definition http (r : request) : M response :=
  fun s =>
    let (res, rs') := transport (relay s) r in
    (res, mkSt (client s) rs' (sent s ++ [r])).

Definition raise_for_status (r : response) : M unit :=
  match raise_for_status_check r with Some e => raise e | None => ret tt end.

(** [resp.json()]. *)
Definition resp_json (r : response) : M json :=
  match resp_body r with Some j => ret j | None => raise JSONDecodeError end.

(** [d[k]]. *)
Definition getitem (d : json) (k : string) : M json :=
  match d with
  | JObj kvs => match dict_get k kvs with Some v => ret v | None => raise (KeyError k) end
  | _ => raise TypeError
  end.

(** [d.get(k, default)]. *)
Definition dict_get_or (d : json) (k : string) (default : json) : M json :=
  match d with
  | JObj kvs => match dict_get k kvs with Some v => ret v | None => ret default end
  | _ => raise AttributeError
  end.

(** ** The methods of [AgoraClient] *)

(** The [_auth_headers] property. *)
Definition _auth_headers : M (list (string * string)) :=
  c <- get_self ;;
  if negb (py_truthy (_token c))
  then raise (RuntimeError "Not registered.  Call register() first.")
  else ret [("Authorization", "Bearer " ++ py_str (_token c))].

Definition register_body (c : AgoraClient) (metadata : json) : list (string * json) :=
  let body := [("publicKey", JStr (public_key (key_pair c)));
               ("privateKey", JStr (private_key (key_pair c)))] in
  let body := match name c with
              | Some n => if opt_str_truthy (name c) then dict_set "name" (JStr n) body else body
              | None => body
              end in
  if py_truthy metadata then dict_set "metadata" metadata body else body.

Definition register (metadata : json) : M json :=
  c <- get_self ;;
  let body := register_body c metadata in
  resp <- http (mkRequest POST (relay_url c ++ "/v1/register") [] (Some (JObj body))) ;;
  raise_for_status resp ;;
  data <- resp_json resp ;;
  t <- getitem data "token" ;;
  c1 <- get_self ;; put_self (set_token c1 t) ;;
  e <- getitem data "expiresAt" ;;
  c2 <- get_self ;; put_self (set_expires_at c2 e) ;;
  ret data.

Definition peers : M json :=
  c <- get_self ;;
  h <- _auth_headers ;;
  resp <- http (mkRequest GET (relay_url c ++ "/v1/peers") h None) ;;
  raise_for_status resp ;;
  j <- resp_json resp ;;
  dict_get_or j "peers" (JArr []).

Definition send_body (to message_type : string) (payload : json)
    (in_reply_to : option string) : list (string * json) :=
  let body := [("to", JStr to); ("type", JStr message_type); ("payload", payload)] in
  match in_reply_to with
  | Some irt => if opt_str_truthy in_reply_to then dict_set "inReplyTo" (JStr irt) body else body
  | None => body
  end.

Definition send (to message_type : string) (payload : json)
    (in_reply_to : option string) : M json :=
  c <- get_self ;;
  let body := send_body to message_type payload in_reply_to in
  h <- _auth_headers ;;
  resp <- http (mkRequest POST (relay_url c ++ "/v1/send") h (Some (JObj body))) ;;
  raise_for_status resp ;;
  resp_json resp.

Definition poll_messages : M json :=
  c <- get_self ;;
  h <- _auth_headers ;;
  resp <- http (mkRequest GET (relay_url c ++ "/v1/messages") h None) ;;
  raise_for_status resp ;;
  j <- resp_json resp ;;
  dict_get_or j "messages" (JArr []).

(** [disconnect] returns [None]. *)
Definition disconnect : M unit :=
  c <- get_self ;;
  h <- _auth_headers ;;
  resp <- http (mkRequest DELETE (relay_url c ++ "/v1/disconnect") h None) ;;
  raise_for_status resp ;;
  c1 <- get_self ;; put_self (set_token c1 JNull) ;;
  c2 <- get_self ;; put_self (set_expires_at c2 JNull).

(** The public operations, with the value each returns. *)
Inductive op : Type :=
| OpRegister (metadata : json)
| OpPeers
| OpSend (to message_type : string) (payload : json) (in_reply_to : option string)
| OpPoll
| OpDisconnect.

Definition run_op (o : op) : M json :=
  match o with
  | OpRegister md => register md
  | OpPeers => peers
  | OpSend to ty p irt => send to ty p irt
  | OpPoll => poll_messages
  | OpDisconnect => disconnect ;; ret JNull
  end.

Definition authenticated (o : op) : bool :=
  match o with OpRegister _ => false | _ => true end.

(** A session of calls, stopping at the first exception. *)
Fixpoint run_ops (os : list op) : M (list json) :=
  match os with
  | [] => ret []
  | o :: rest => v <- run_op o ;; vs <- run_ops rest ;; ret (v :: vs)
  end.


(** ** The demo: two clients on one relay *)

(** The two [AgoraClient] objects of [demo], each with its own
    [requests.Session] (its own request log), and the relay they share. *)
Record dst : Type := mkDst {
  d_alice : AgoraClient;
  d_alice_sent : list request;
  d_bob : AgoraClient;
  d_bob_sent : list request;
  d_relay : relay_state
}.

Definition D (A : Type) : Type := dst -> (exn + A) * dst.

Definition dbind {A B} (m : D A) (k : A -> D B) : D B :=
  fun d => match m d with
           | (inl e, d') => (inl e, d')
           | (inr a, d') => k a d'
           end.

Notation "x <-- m ;;; k" := (dbind m (fun x => k))
  (at level 61, m at next level, right associativity).

(** A Python expression that cannot touch the clients. *)
Definition dlift {A} (r : exn + A) : D A := fun d => (r, d).

(** A method call on [alice] (resp. [bob]). *)
Definition as_alice {A} (m : M A) : D A :=
  fun d => let (r, s') := m (mkSt (d_alice d) (d_relay d) (d_alice_sent d)) in
           (r, mkDst (client s') (sent s') (d_bob d) (d_bob_sent d) (relay s')).

Definition as_bob {A} (m : M A) : D A :=
  fun d => let (r, s') := m (mkSt (d_bob d) (d_relay d) (d_bob_sent d)) in
           (r, mkDst (d_alice d) (d_alice_sent d) (client s') (sent s') (relay s')).

(** [demo] after the two clients are created; printing and the sleep have
    no effect on the model, the expressions they evaluate are kept. *)
Definition demo_body : D unit :=
  _ <-- as_alice (register (JObj [("capabilities", JArr [JStr "summarization"])])) ;;;
  _ <-- as_bob (register JNull) ;;;
  ps <-- as_alice peers ;;;
  _ <-- dlift (py_len ps) ;;;
  items <-- dlift (py_iter ps) ;;;
  _ <-- dlift (for_each demo_peer_line items) ;;;
  to <-- (fun d => (inr (public_key (key_pair (d_bob d))), d)) ;;;
  result <-- as_alice (send to "publish" (JObj [("text", JStr "Hello from Python!")]) None) ;;;
  _ <-- dlift (py_getitem result "messageId") ;;;
  msgs <-- as_bob poll_messages ;;;
  _ <-- dlift (py_len msgs) ;;;
  items2 <-- dlift (py_iter msgs) ;;;
  _ <-- dlift (for_each demo_message_lines items2) ;;;
  _ <-- as_alice disconnect ;;;
  as_bob disconnect.

(** [demo(relay_url)], given the key pairs [generate_key_pair] returns for
    alice and bob and the relay's state. *)
Definition demo (url : string) (kp_alice kp_bob : KeyPair) (rs : relay_state)
  : (exn + unit) * dst :=
  demo_body (mkDst (new_client url kp_alice (Some "alice")) []
                   (new_client url kp_bob (Some "bob")) [] rs).

(** ** Properties of the client *)

Definition not_registered : exn := RuntimeError "Not registered.  Call register() first.".

(** The header every authenticated request carries. *)
Definition bearer (c : AgoraClient) : list (string * string) :=
  [("Authorization", "Bearer " ++ py_str (_token c))].

Lemma auth_headers_spec (s : st) :
  _auth_headers s =
  (if py_truthy (_token (client s)) then inr (bearer (client s)) else inl not_registered, s).
Proof.
  unfold _auth_headers, bind, get_self, ret, raise. cbn.
  destruct (py_truthy _); reflexivity.
Qed.

Ltac unfold_client :=
  unfold run_op, register, peers, send, poll_messages, disconnect,
    bind, ret, raise, get_self, put_self, http,
    raise_for_status, resp_json, getitem, dict_get_or in *;
  cbn -[_auth_headers] in *; rewrite ?auth_headers_spec in *.

(** Case split on every test the method performs: the token check, the
    relay's answer, the status check, the body, the lookups. *)
Ltac split_client :=
  repeat (first
    [ match goal with
      | |- context [py_truthy ?t] =>
          let E := fresh "E" in destruct (py_truthy t) eqn:E
      end
    | match goal with
      | |- context [transport ?a ?b] =>
          let E := fresh "E" in destruct (transport a b) as [[?e|?resp] ?rs] eqn:E
      end
    | match goal with
      | |- context [raise_for_status_check ?r] =>
          let E := fresh "E" in destruct (raise_for_status_check r) eqn:E
      end
    | match goal with
      | |- context [resp_body ?r] =>
          let E := fresh "E" in destruct (resp_body r) as [?j|] eqn:E
      end
    | match goal with
      | |- context [dict_get ?k ?l] =>
          let E := fresh "E" in destruct (dict_get k l) eqn:E
      end
    | match goal with
      | |- context [match ?e with _ => _ end] =>
          is_var e; let E := fresh "E" in destruct e eqn:E
      end
    | match goal with
      | |- context [match ?e with _ => _ end] =>
          let E := fresh "E" in destruct e eqn:E
      end ]; cbn in * ).

(** [http] appends exactly its request to the log and leaves the client alone. *)
Lemma http_spec (q : request) (s : st) :
  client (snd (http q s)) = client s /\ sent (snd (http q s)) = (sent s ++ [q])%list.
Proof. unfold http. destruct (transport (relay s) q). split; reflexivity. Qed.

(** C10: [peers], [send] and [poll_messages] leave every field of the client
    (key_pair, name, _token, _expires_at, and relay_url) as it was, whether
    they return or raise. *)
Theorem peers_send_poll_frame (s : st) (to message_type : string) (payload : json)
    (in_reply_to : option string) :
  client (snd (peers s)) = client s /\
  client (snd (send to message_type payload in_reply_to s)) = client s /\
  client (snd (poll_messages s)) = client s.
Proof. unfold_client. repeat split; split_client; reflexivity. Qed.


Lemma raise_for_status_2xx (r : response) :
  200 <= status_code r < 300 -> raise_for_status_check r = None.
Proof.
  intros H. unfold raise_for_status_check.
  destruct (400 <=? status_code r) eqn:E; [apply Z.leb_le in E; lia | reflexivity].
Qed.

Lemma raise_for_status_4xx_5xx (r : response) :
  400 <= status_code r < 600 -> raise_for_status_check r = Some (HTTPError (status_code r)).
Proof.
  intros H. unfold raise_for_status_check.
  rewrite (proj2 (Z.leb_le _ _) (proj1 H)), (proj2 (Z.ltb_lt _ _) (proj2 H)).
  reflexivity.
Qed.

(** Without a truthy token an authenticated method raises before any
    request: the state, the relay and the log are untouched. *)
Lemma auth_ops_need_token (o : op) (s : st) :
  authenticated o = true -> py_truthy (_token (client s)) = false ->
  run_op o s = (inl not_registered, s).
Proof.
  intros Ha Ht. destruct o; try discriminate; unfold_client; rewrite Ht; reflexivity.
Qed.

(** C5: after a [disconnect] that returns, [_token] and [_expires_at] are
    [None] and every further authenticated call raises locally, without a
    request and so without the old token. *)
Theorem disconnect_clears_session (s s' : st) :
  disconnect s = (inr tt, s') ->
  _token (client s') = JNull /\ _expires_at (client s') = JNull /\
  (forall o, authenticated o = true -> run_op o s' = (inl not_registered, s')).
Proof.
  unfold_client. split_client; intros H; inversion H; subst; cbn.
  do 2 (split; [reflexivity|]). intros o Ha. apply auth_ops_need_token; auto.
Qed.

(** C7: a [register] that returns stored the [token] and [expiresAt]
    fields of the relay's JSON answer, and returns that whole answer. *)
Theorem register_stores_response (metadata : json) (s s' : st) (data : json) :
  register metadata s = (inr data, s') ->
  exists resp rs' kvs,
    transport (relay s)
      (mkRequest POST (relay_url (client s) ++ "/v1/register") []
         (Some (JObj (register_body (client s) metadata)))) = (inr resp, rs') /\
    resp_body resp = Some data /\ data = JObj kvs /\
    dict_get "token" kvs = Some (_token (client s')) /\
    dict_get "expiresAt" kvs = Some (_expires_at (client s')).
Proof.
  unfold_client. split_client; intros H; inversion H; subst; cbn.
  eexists _, _, _. repeat split; eauto.
Qed.

(** C9: on a 2xx answer whose JSON object has no ["peers"] (resp.
    ["messages"]) key, [peers] (resp. [poll_messages]) returns [[]]. *)
Theorem missing_list_key_defaults (s : st) (resp : response) (rs' : relay_state)
    (kvs : list (string * json)) :
  py_truthy (_token (client s)) = true ->
  (forall q, transport (relay s) q = (inr resp, rs')) ->
  200 <= status_code resp < 300 ->
  resp_body resp = Some (JObj kvs) ->
  (dict_get "peers" kvs = None -> fst (peers s) = inr (JArr [])) /\
  (dict_get "messages" kvs = None -> fst (poll_messages s) = inr (JArr [])).
Proof.
  intros Ht Hr H2 Hb. unfold_client. rewrite Ht. cbn. rewrite !Hr. cbn.
  rewrite (raise_for_status_2xx resp H2), Hb. cbn.
  split; intros Hk; rewrite Hk; reflexivity.
Qed.

(** C1 (as amended): when the relay answers with a 4xx or 5xx status,
    every operation raises [HTTPError] with that status after exactly one
    request (no retry), and the client's fields are left as they were; an
    authenticated call without a token raises before sending anything. *)
Theorem http_error_aborts (o : op) (s : st) (resp : response) (rs' : relay_state) :
  (forall q, transport (relay s) q = (inr resp, rs')) ->
  400 <= status_code resp < 600 ->
  client (snd (run_op o s)) = client s /\
  ((fst (run_op o s) = inl (HTTPError (status_code resp)) /\
    exists q, sent (snd (run_op o s)) = (sent s ++ [q])%list) \/
   (authenticated o = true /\ run_op o s = (inl not_registered, s))).
Proof.
  intros Hr He.
  destruct (authenticated o && negb (py_truthy (_token (client s)))) eqn:Hn.
  - apply andb_true_iff in Hn as [Ha Ht]. apply negb_true_iff in Ht.
    rewrite auth_ops_need_token by assumption. cbn. split; [reflexivity|]. right; auto.
  - split; [|left]; destruct o; unfold_client;
      try (destruct (py_truthy (_token (client s))); [|discriminate Hn]; cbn);
      rewrite Hr; cbn; rewrite (raise_for_status_4xx_5xx resp He); cbn;
      try reflexivity; (split; [reflexivity | eexists; reflexivity]).
Qed.


(** Every later step of [register] leaves the log alone. *)
Lemma register_sent (metadata : json) (s : st) :
  sent (snd (register metadata s)) =
  (sent s ++ [mkRequest POST (relay_url (client s) ++ "/v1/register") []
                (Some (JObj (register_body (client s) metadata)))])%list.
Proof. unfold_client. split_client; reflexivity. Qed.

(** C3: the body of [POST /v1/register] of a client whose key pair comes
    from [generate_key_pair] holds the public key as the hex of its SPKI
    DER encoding and the private key as the hex of its PKCS8 DER encoding,
    then ["name"] exactly when a non-empty name is set and ["metadata"]
    exactly when the metadata is truthy; the request has no headers. *)
Theorem register_sends_hex_der_keys
    (Priv Pub : Type) (pub_of : Priv -> Pub) (spki : Pub -> list byte)
    (pkcs8 : Priv -> list byte) (sk : Priv) (url : string) (nm : option string)
    (tok exp : json) (rs : relay_state) (log : list request) (metadata : json) :
  sent (snd (register metadata
    (mkSt (mkClient url (generate_key_pair Priv Pub pub_of spki pkcs8 sk) nm tok exp) rs log))) =
  (log ++ [mkRequest POST (url ++ "/v1/register") []
    (Some (JObj ([("publicKey", JStr (bytes_hex (spki (pub_of sk))));
                  ("privateKey", JStr (bytes_hex (pkcs8 sk)))]
                 ++ match nm with
                    | Some n => if String.eqb n "" then [] else [("name", JStr n)]
                    | None => []
                    end
                 ++ (if py_truthy metadata then [("metadata", metadata)] else []))))])%list.
Proof.
  rewrite register_sent. cbn. unfold register_body. cbn.
  destruct nm as [n|]; cbn; [destruct (String.eqb n "")|]; cbn;
    destruct (py_truthy metadata); reflexivity.
Qed.

(** The request [send] posts, with headers [h]. *)
Lemma send_sent (to message_type : string) (payload : json) (in_reply_to : option string)
    (s : st) :
  py_truthy (_token (client s)) = true ->
  sent (snd (send to message_type payload in_reply_to s)) =
  (sent s ++ [mkRequest POST (relay_url (client s) ++ "/v1/send") (bearer (client s))
                (Some (JObj (send_body to message_type payload in_reply_to)))])%list.
Proof. intros Ht. unfold_client. rewrite Ht. cbn. split_client; reflexivity. Qed.

(** C6 (as amended): [send] posts [to], [type] and [payload], then
    [inReplyTo] exactly when a non-empty [in_reply_to] was given; on a 2xx
    answer it returns the relay's JSON body unchanged. *)
Theorem send_request_and_result (to message_type : string) (payload : json)
    (in_reply_to : option string) (s : st) :
  py_truthy (_token (client s)) = true ->
  let body := ([("to", JStr to); ("type", JStr message_type); ("payload", payload)]
               ++ match in_reply_to with
                  | Some r => if String.eqb r "" then [] else [("inReplyTo", JStr r)]
                  | None => []
                  end)%list in
  let q := mkRequest POST (relay_url (client s) ++ "/v1/send") (bearer (client s))
             (Some (JObj body)) in
  sent (snd (send to message_type payload in_reply_to s)) = (sent s ++ [q])%list /\
  (forall resp rs' j, transport (relay s) q = (inr resp, rs') ->
     200 <= status_code resp < 300 -> resp_body resp = Some j ->
     fst (send to message_type payload in_reply_to s) = inr j).
Proof.
  intros Ht body q.
  assert (Hb : send_body to message_type payload in_reply_to = body).
  { subst body. unfold send_body. cbn.
    destruct in_reply_to as [r|]; cbn; [destruct (String.eqb r "")|]; reflexivity. }
  split.
  - rewrite send_sent by assumption. rewrite Hb. reflexivity.
  - intros resp rs' j Hr H2 Hj. unfold_client. rewrite Ht. cbn.
    rewrite Hb. fold q. rewrite Hr. cbn.
    rewrite (raise_for_status_2xx resp H2), Hj. reflexivity.
Qed.

(** An authenticated call sends at most one request, and that request
    carries [Authorization: Bearer <str(_token)>] and nothing else. *)
Lemma auth_request_header (o : op) (s : st) :
  authenticated o = true ->
  sent (snd (run_op o s)) = sent s \/
  exists q, sent (snd (run_op o s)) = (sent s ++ [q])%list /\
            req_headers q = bearer (client s).
Proof.
  intros Ha. destruct o; try discriminate; unfold_client;
    split_client; (left; reflexivity) || (right; eexists; split; reflexivity).
Qed.


(** ** Further properties of the client methods *)

(** Every public operation sends at most one request (no retry) and never
    changes the relay URL, the key pair or the name. *)
Theorem run_op_one_request_frame (o : op) (s : st) :
  let s' := snd (run_op o s) in
  (sent s' = sent s \/ exists q, sent s' = (sent s ++ [q])%list) /\
  relay_url (client s') = relay_url (client s) /\
  key_pair (client s') = key_pair (client s) /\
  name (client s') = name (client s).
Proof.
  cbv zeta. destruct o; unfold_client; split_client;
    first [ repeat split; left; reflexivity
          | repeat split; right; eexists; reflexivity ].
Qed.

(** A transport failure raised by [requests] (connection error, timeout)
    propagates unchanged out of every operation, after one request, and
    leaves the client as it was. *)
Theorem transport_failure_propagates (o : op) (s : st) (e : exn) (rs' : relay_state) :
  (forall q, transport (relay s) q = (inl e, rs')) ->
  client (snd (run_op o s)) = client s /\
  (fst (run_op o s) = inl e \/
   (authenticated o = true /\ run_op o s = (inl not_registered, s))).
Proof.
  intros Hr. destruct o; unfold_client;
    try (destruct (py_truthy (_token (client s))) eqn:Ht; cbn;
         [| split; [reflexivity | right; split; reflexivity]]);
    rewrite Hr; cbn; split; try reflexivity; left; reflexivity.
Qed.

(** A 2xx answer to [register] that cannot be used raises before any
    field is written: a body that is not JSON raises [JSONDecodeError], a
    JSON value that is not an object raises [TypeError], an object without
    ["token"] raises [KeyError "token"]; [_token] and [_expires_at] keep
    their values in each case. *)
Theorem register_malformed_answer_no_mutation (metadata : json) (s : st)
    (resp : response) (rs' : relay_state) :
  (forall q, transport (relay s) q = (inr resp, rs')) ->
  200 <= status_code resp < 300 ->
  (resp_body resp = None ->
     fst (register metadata s) = inl JSONDecodeError /\
     client (snd (register metadata s)) = client s) /\
  (forall j, resp_body resp = Some j -> (forall kvs, j <> JObj kvs) ->
     fst (register metadata s) = inl TypeError /\
     client (snd (register metadata s)) = client s) /\
  (forall kvs, resp_body resp = Some (JObj kvs) -> dict_get "token" kvs = None ->
     fst (register metadata s) = inl (KeyError "token") /\
     client (snd (register metadata s)) = client s).
Proof.
  intros Hr H2. unfold_client. rewrite Hr. cbn.
  rewrite (raise_for_status_2xx resp H2). cbn.
  split; [|split].
  - intros Hb. rewrite Hb. split; reflexivity.
  - intros j Hb Hn. rewrite Hb.
    destruct j; try (exfalso; eapply Hn; reflexivity); split; reflexivity.
  - intros kvs Hb Hk. rewrite Hb. cbn. rewrite Hk. split; reflexivity.
Qed.


(** Helper: the request log of one operation grows by at most one. *)
Lemma run_op_sent (o : op) (s : st) :
  sent (snd (run_op o s)) = sent s \/ exists q, sent (snd (run_op o s)) = (sent s ++ [q])%list.
Proof.
  destruct o; unfold_client; split_client;
    first [ left; reflexivity | right; eexists; reflexivity ].
Qed.

(** Helper: with a truthy token an authenticated operation sends exactly
    one request, carrying the bearer header of that token. *)
Lemma auth_request_sent (o : op) (s : st) :
  authenticated o = true -> py_truthy (_token (client s)) = true ->
  exists q, sent (snd (run_op o s)) = (sent s ++ [q])%list /\ req_headers q = bearer (client s).
Proof.
  intros Ha Ht. destruct o; try discriminate; unfold_client; rewrite Ht; cbn;
    split_client; eexists; split; reflexivity.
Qed.

(** Helper: what a [register] that returns has stored. *)
Lemma register_returned (metadata : json) (s s' : st) (data : json) :
  register metadata s = (inr data, s') ->
  exists kvs, data = JObj kvs /\
    dict_get "token" kvs = Some (_token (client s')) /\
    dict_get "expiresAt" kvs = Some (_expires_at (client s')).
Proof.
  unfold_client. split_client; intros H; inversion H; subst; cbn. eauto.
Qed.

(** A session of calls stops at the first exception and sends at most one
    request per call. *)
Theorem run_ops_request_bound (os : list op) (s : st) :
  (length (sent (snd (run_ops os s))) <= length (sent s) + length os)%nat.
Proof.
  revert s. induction os as [|o os IH]; intros s; cbn; [lia|].
  unfold bind at 1. destruct (run_op o s) as [[e|v] s1] eqn:E; cbn.
  - pose proof (run_op_sent o s) as Hs. rewrite E in Hs. cbn in Hs.
    destruct Hs as [-> | [q ->]]; rewrite ?length_app; cbn; lia.
  - unfold bind. specialize (IH s1). destruct (run_ops os s1) as [[e|vs] s2] eqn:E2; cbn in *;
      pose proof (run_op_sent o s) as Hs; rewrite E in Hs; cbn in Hs;
      destruct Hs as [Hs | [q Hs]]; rewrite Hs, ?length_app in IH; cbn in IH; lia.
Qed.

(** [peers] and [poll_messages] on a 2xx answer: a JSON body that is not
    an object raises [AttributeError]; on an object they return the value
    under their key as it is, whatever its type. *)
Theorem list_getters_answer_shape (s : st) (resp : response) (rs' : relay_state) :
  py_truthy (_token (client s)) = true ->
  (forall q, transport (relay s) q = (inr resp, rs')) ->
  200 <= status_code resp < 300 ->
  (forall j, resp_body resp = Some j -> (forall kvs, j <> JObj kvs) ->
     fst (peers s) = inl AttributeError /\ fst (poll_messages s) = inl AttributeError) /\
  (forall kvs v, resp_body resp = Some (JObj kvs) -> dict_get "peers" kvs = Some v ->
     fst (peers s) = inr v) /\
  (forall kvs v, resp_body resp = Some (JObj kvs) -> dict_get "messages" kvs = Some v ->
     fst (poll_messages s) = inr v).
Proof.
  intros Ht Hr H2. unfold_client. rewrite Ht. cbn. rewrite !Hr. cbn.
  rewrite (raise_for_status_2xx resp H2). split; [|split].
  - intros j Hb Hn. rewrite Hb. destruct j; try (exfalso; eapply Hn; reflexivity); split; reflexivity.
  - intros kvs v Hb Hk. rewrite Hb. cbn. rewrite Hk. reflexivity.
  - intros kvs v Hb Hk. rewrite Hb. cbn. rewrite Hk. reflexivity.
Qed.

(** [disconnect] never reads the answer's body: any answer whose status
    is not 4xx or 5xx, JSON or not (an empty [204 No Content] included),
    makes it return [None] with [_token] and [_expires_at] cleared. *)
Theorem disconnect_ignores_body (s : st) (resp : response) (rs' : relay_state) :
  py_truthy (_token (client s)) = true ->
  (forall q, transport (relay s) q = (inr resp, rs')) ->
  (status_code resp < 400 \/ 600 <= status_code resp) ->
  fst (disconnect s) = inr tt /\
  client (snd (disconnect s)) =
    mkClient (relay_url (client s)) (key_pair (client s)) (name (client s)) JNull JNull.
Proof.
  intros Ht Hr Hst. unfold_client. rewrite Ht. cbn. rewrite Hr. cbn.
  unfold raise_for_status_check.
  destruct (400 <=? status_code resp) eqn:E1, (status_code resp <? 600) eqn:E2; cbn;
    try (split; reflexivity).
  apply Z.leb_le in E1. apply Z.ltb_lt in E2. lia.
Qed.

(** [register] accepts a falsy token: on a 2xx answer whose ["token"] is
    [null], [""], [0] or another falsy value and that has ["expiresAt"],
    it returns the answer, and afterwards every authenticated call raises
    [RuntimeError] without sending a request. *)
Theorem register_falsy_token_unusable (metadata : json) (s : st) (resp : response)
    (rs' : relay_state) (kvs : list (string * json)) (t e : json) :
  (forall q, transport (relay s) q = (inr resp, rs')) ->
  200 <= status_code resp < 300 ->
  resp_body resp = Some (JObj kvs) ->
  dict_get "token" kvs = Some t -> dict_get "expiresAt" kvs = Some e ->
  py_truthy t = false ->
  fst (register metadata s) = inr (JObj kvs) /\
  forall o, authenticated o = true ->
    let s' := snd (register metadata s) in run_op o s' = (inl not_registered, s').
Proof.
  intros Hr H2 Hb Hk He Hf. unfold register, bind, ret, get_self, put_self, http,
    raise_for_status, resp_json, getitem. cbn.
  rewrite Hr. cbn. rewrite (raise_for_status_2xx resp H2). cbn. rewrite Hb. cbn.
  rewrite Hk. cbn. rewrite He. cbn. split; [reflexivity|].
  intros o Ha. apply auth_ops_need_token; [assumption|]. exact Hf.
Qed.

(** After a [register] that returns with a non-empty string token [t],
    the next authenticated call sends exactly one request, whose only
    header is [Authorization: Bearer t]. *)
Theorem register_then_call_uses_token (metadata : json) (s s' : st) (data : json)
    (t : string) (o : op) :
  register metadata s = (inr data, s') ->
  (exists kvs, data = JObj kvs /\ dict_get "token" kvs = Some (JStr t)) ->
  t <> "" -> authenticated o = true ->
  exists q, sent (snd (run_op o s')) = (sent s' ++ [q])%list /\
            req_headers q = [("Authorization", "Bearer " ++ t)].
Proof.
  intros Hreg [kvs [-> Hk]] Hne Ha.
  destruct (register_returned metadata s s' _ Hreg) as [kvs' [Heq [Ht _]]].
  injection Heq as <-. rewrite Hk in Ht. injection Ht as Ht.
  assert (Htr : py_truthy (_token (client s')) = true).
  { rewrite <- Ht. cbn. destruct (String.eqb_spec t ""); [contradiction | reflexivity]. }
  destruct (auth_request_sent o s' Ha Htr) as [q [Hs Hh]].
  exists q. split; [exact Hs|]. rewrite Hh. unfold bearer. rewrite <- Ht. reflexivity.
Qed.

End Client.

Arguments client {relay_state} _.
Arguments relay {relay_state} _.
Arguments sent {relay_state} _.


(** ** Counterexamples and runs on concrete inputs *)

(** C1 counterexample: [raise_for_status] only rejects 4xx and 5xx.  A
    [300 Multiple Choices] answer (no [Location], so [requests] does not
    follow it) is not raised: [disconnect] returns [None] and clears the
    token. *)
Lemma disconnect_on_300_returns :
  run_op unit (const_transport (mkResponse 300 None)) str_none OpDisconnect
    (mkSt unit demo_client tt []) =
  (inr JNull,
   mkSt unit (mkClient "http://relay" (mkKeyPair "pk-a" "sk-a") None JNull JNull) tt
     [mkRequest DELETE "http://relay/v1/disconnect" [("Authorization", "Bearer t")] None]).
Proof. reflexivity. Qed.

(** C6 counterexample: an empty [in_reply_to] string is supplied but falsy,
    so the posted body has no [inReplyTo]. *)
Lemma send_empty_in_reply_to_dropped :
  sent (snd (send unit (const_transport (mkResponse 200 (Some (JObj [("messageId", JStr "m1")]))))
               str_none "pk-b" "publish" JNull (Some "") (mkSt unit demo_client tt []))) =
  [mkRequest POST "http://relay/v1/send" [("Authorization", "Bearer t")]
     (Some (JObj [("to", JStr "pk-b"); ("type", JStr "publish"); ("payload", JNull)]))].
Proof. reflexivity. Qed.

(** C4: a second [register] whose 2xx answer lacks [expiresAt] raises
    [KeyError] after it has already stored the new token, so the next
    [peers] authenticates with the token of a failed registration rather
    than that of the last successful one. *)
Lemma failed_register_token_used :
  let tr := scripted_transport script_partial_register in
  let s0 := mkSt nat (new_client "http://relay" (mkKeyPair "pk-a" "sk-a") None) 0%nat [] in
  let (r1, s1) := register nat tr JNull s0 in
  let (r2, s2) := register nat tr JNull s1 in
  let (r3, s3) := peers nat tr str_none s2 in
  _token (client s1) = JStr "t1" /\ (exists d, r1 = inr d) /\
  r2 = inl (KeyError "expiresAt") /\ _token (client s2) = JStr "t2" /\
  r3 = inr (JArr []) /\
  last (sent s3) (mkRequest GET "" [] None) =
    mkRequest GET "http://relay/v1/peers" [("Authorization", "Bearer t2")] None.
Proof. vm_compute. repeat split; eauto. Qed.

(** C8: before any successful [register] the client can already hold a
    token.  A first [register] whose 2xx answer lacks [expiresAt] raises
    [KeyError] after storing the token, and the next [peers] does not
    raise [RuntimeError] locally: it sends a request carrying that token. *)
Lemma failed_first_register_peers_sends :
  let tr := scripted_transport script_first_register_partial in
  let s0 := mkSt nat (new_client "http://relay" (mkKeyPair "pk-a" "sk-a") None) 0%nat [] in
  let (r1, s1) := register nat tr JNull s0 in
  let (r2, s2) := peers nat tr str_none s1 in
  _token (client s0) = JNull /\ r1 = inl (KeyError "expiresAt") /\
  _token (client s1) = JStr "t2" /\ r2 = inr (JArr []) /\
  length (sent s2) = 2%nat /\
  last (sent s2) (mkRequest GET "" [] None) =
    mkRequest GET "http://relay/v1/peers" [("Authorization", "Bearer t2")] None.
Proof. vm_compute. repeat split. Qed.

(** ** The client against the spec-modelled relay *)

Lemma eqb_app_same (b x y : string) : String.eqb (b ++ x) (b ++ y) = String.eqb x y.
Proof. induction b as [|c b IH]; cbn; [reflexivity|]. rewrite Ascii.eqb_refl. exact IH. Qed.

Lemma substring_all (t : string) : substring 0 (String.length t) t = t.
Proof. induction t as [|c t IH]; cbn; [reflexivity|]. now rewrite IH. Qed.

Lemma prefix_empty (t : string) : String.prefix "" t = true.
Proof. destruct t; reflexivity. Qed.

Lemma truthy_nonempty (t : string) : t <> "" -> py_truthy (JStr t) = true.
Proof.
  intros H. cbn. destruct (String.eqb_spec t ""); [contradiction|reflexivity].
Qed.

Lemma lookup_update_same {A} (k : string) (v : A) (l : list (string * A)) :
  Relay.lookup k (Relay.update k v l) = Some v.
Proof.
  induction l as [|[k' v'] l IH]; cbn; [now rewrite String.eqb_refl|].
  destruct (String.eqb_spec k k') as [->|Hne]; cbn.
  - now rewrite String.eqb_refl.
  - apply String.eqb_neq in Hne. now rewrite Hne.
Qed.

Section RelayRuns.
Variable key_ok : string -> string -> bool.
Variable ttl : Z.
Variable base : string.
Variable ns : json -> string.

(** One [send] by a client holding a token [t] of [from], live at the
    relay's clock, to a known recipient [to]: the relay appends one
    message, stamped with its clock, to [to]'s queue. *)
Lemma send_to_relay (c : AgoraClient) (rs : Relay.relay) (log : list request)
    (t from to : string) (exp : Z) (ident : json) (ty : string) (p : json)
    (irt : option string) :
  relay_url c = base -> _token c = JStr t -> t <> "" ->
  Relay.lookup t (Relay.sessions rs) = Some (from, exp) -> Relay.clock rs < exp ->
  Relay.lookup to (Relay.registry rs) = Some ident ->
  let mid := "msg-" ++ HexString.of_nat (Relay.next_id rs) in
  exists log',
    send Relay.relay (Relay.handle key_ok ttl base) ns to ty p irt (mkSt _ c rs log) =
    (inr (JObj [("messageId", JStr mid)]),
     mkSt _ c (Relay.mkRelay (Relay.registry rs) (Relay.sessions rs)
                 (Relay.update to
                    (Relay.queue_of to rs ++
                     [Relay.message mid from to (JStr ty) p (in_reply_to_json irt) (Relay.clock rs)])%list
                    (Relay.queues rs))
                 (S (Relay.next_id rs)) (Relay.clock rs)) log').
Proof.
  intros Hu Ht Hne Hs Hlive Hr mid.
  assert (Hl : Relay.live rs exp = true) by (apply Z.ltb_lt; exact Hlive).
  unfold send, bind, ret, get_self, http, raise_for_status, resp_json. cbn -[_auth_headers].
  rewrite auth_headers_spec. cbn -[Relay.live]. rewrite Ht, (truthy_nonempty t Hne).
  cbn -[Relay.live].
  unfold Relay.handle. cbn -[Relay.live]. rewrite Hu, eqb_app_same. cbn -[Relay.live].
  rewrite String.eqb_refl.
  unfold Relay.authenticate. rewrite Ht. cbn -[Relay.live].
  rewrite Nat.sub_0_r, substring_all, prefix_empty, Hs, Hl.
  unfold Relay.do_send.
  destruct irt as [s|]; [destruct (String.eqb s "") eqn:Es|]; cbn -[Relay.live];
    rewrite ?Es; cbn -[Relay.live]; rewrite Hr; cbn -[Relay.live]; eexists; reflexivity.
Qed.

(** One [poll_messages] by a client holding a token [t] of [pk], live at
    the relay's clock: the whole queue of [pk] is returned and emptied. *)
Lemma poll_from_relay (c : AgoraClient) (rs : Relay.relay) (log : list request)
    (t pk : string) (exp : Z) :
  relay_url c = base -> _token c = JStr t -> t <> "" ->
  Relay.lookup t (Relay.sessions rs) = Some (pk, exp) -> Relay.clock rs < exp ->
  exists log',
    poll_messages Relay.relay (Relay.handle key_ok ttl base) ns (mkSt _ c rs log) =
    (inr (JArr (Relay.queue_of pk rs)),
     mkSt _ c (Relay.mkRelay (Relay.registry rs) (Relay.sessions rs)
                 (Relay.update pk [] (Relay.queues rs)) (Relay.next_id rs) (Relay.clock rs)) log').
Proof.
  intros Hu Ht Hne Hs Hlive.
  assert (Hl : Relay.live rs exp = true) by (apply Z.ltb_lt; exact Hlive).
  unfold poll_messages, bind, ret, get_self, http, raise_for_status, resp_json, dict_get_or.
  cbn -[_auth_headers].
  rewrite auth_headers_spec. cbn -[Relay.live]. rewrite Ht, (truthy_nonempty t Hne).
  cbn -[Relay.live].
  unfold Relay.handle. cbn -[Relay.live]. rewrite Hu, String.eqb_refl.
  unfold Relay.authenticate. rewrite Ht. cbn -[Relay.live].
  rewrite Nat.sub_0_r, substring_all, prefix_empty, Hs, Hl.
  cbn. eexists. reflexivity.
Qed.

End RelayRuns.

(** C2 (relay modelled from the spec): when [a] sends [m1] then [m2] to
    [b] (each with any type, payload and [in_reply_to]) and [b]'s inbound
    queue was empty, [b]'s next [poll_messages] returns the two messages
    in sending order, each stamped with the time it was sent, and an
    immediate second poll returns [[]].  The relay's clock may move
    between the four calls as long as both tokens stay unexpired. *)
Theorem poll_drains_fifo (key_ok : string -> string -> bool) (ttl : Z) (base : string)
    (ns : json -> string) (a b : AgoraClient) (rs : Relay.relay)
    (ta tb pka pkb : string) (ea eb : Z) (ident : json)
    (ty1 ty2 : string) (p1 p2 : json) (irt1 irt2 : option string) (t1 t2 t3 t4 : Z) :
  relay_url a = base -> relay_url b = base ->
  _token a = JStr ta -> _token b = JStr tb -> ta <> "" -> tb <> "" ->
  Relay.lookup ta (Relay.sessions rs) = Some (pka, ea) ->
  Relay.lookup tb (Relay.sessions rs) = Some (pkb, eb) ->
  t1 < ea -> t2 < ea -> t3 < eb -> t4 < eb ->
  Relay.lookup pkb (Relay.registry rs) = Some ident ->
  Relay.queue_of pkb rs = [] ->
  let tr := Relay.handle key_ok ttl base in
  let sa1 := snd (send Relay.relay tr ns pkb ty1 p1 irt1 (mkSt _ a (Relay.set_clock t1 rs) [])) in
  let sa2 := snd (send Relay.relay tr ns pkb ty2 p2 irt2
                    (mkSt _ (client sa1) (Relay.set_clock t2 (relay sa1)) (sent sa1))) in
  let pb1 := poll_messages Relay.relay tr ns (mkSt _ b (Relay.set_clock t3 (relay sa2)) []) in
  let pb2 := poll_messages Relay.relay tr ns
               (mkSt _ (client (snd pb1)) (Relay.set_clock t4 (relay (snd pb1))) (sent (snd pb1))) in
  exists id1 id2,
    fst pb1 = inr (JArr [Relay.message id1 pka pkb (JStr ty1) p1 (in_reply_to_json irt1) t1;
                         Relay.message id2 pka pkb (JStr ty2) p2 (in_reply_to_json irt2) t2]) /\
    fst pb2 = inr (JArr []).
Proof.
  intros Hua Hub Hta Htb Hna Hnb Hsa Hsb H1 H2 H3 H4 Hreg Hq. cbv zeta.
  destruct (send_to_relay key_ok ttl base ns a (Relay.set_clock t1 rs) [] ta pka pkb ea ident
              ty1 p1 irt1 Hua Hta Hna Hsa H1 Hreg) as [l1 E1].
  rewrite E1. cbn [snd client relay sent].
  set (rs1 := Relay.mkRelay _ _ _ _ _).
  destruct (send_to_relay key_ok ttl base ns a (Relay.set_clock t2 rs1) l1 ta pka pkb ea ident
              ty2 p2 irt2 Hua Hta Hna Hsa H2 Hreg) as [l2 E2].
  rewrite E2. cbn [snd client relay sent].
  set (rs2 := Relay.mkRelay _ _ _ _ _).
  destruct (poll_from_relay key_ok ttl base ns b (Relay.set_clock t3 rs2) [] tb pkb eb
              Hub Htb Hnb Hsb H3) as [l3 E3].
  rewrite E3. cbn [snd fst client relay sent].
  set (rs3 := Relay.mkRelay _ _ _ _ _).
  destruct (poll_from_relay key_ok ttl base ns b (Relay.set_clock t4 rs3) l3 tb pkb eb
              Hub Htb Hnb Hsb H4) as [l4 E4].
  rewrite E4. cbn [fst].
  eexists _, _. split.
  - unfold Relay.queue_of at 1. subst rs2. cbn [Relay.queues Relay.set_clock].
    rewrite lookup_update_same.
    unfold Relay.queue_of at 1. subst rs1. cbn [Relay.queues Relay.set_clock].
    rewrite lookup_update_same. unfold Relay.queue_of, Relay.set_clock in *.
    cbn [Relay.queues] in *. rewrite Hq. reflexivity.
  - unfold Relay.queue_of. subst rs3. cbn [Relay.queues Relay.set_clock].
    rewrite lookup_update_same. reflexivity.
Qed.

(** ** Witnesses: the hypotheses of the theorems hold on concrete inputs *)

Lemma disconnect_clears_session_witness :
  let tr := const_transport (mkResponse 200 (Some (JObj []))) in
  let s0 := mkSt unit demo_client tt [] in
  let s1 := snd (disconnect unit tr str_none s0) in
  disconnect unit tr str_none s0 = (inr tt, s1) /\
  (_token (client s1) = JNull /\ _expires_at (client s1) = JNull /\
   (forall o, authenticated o = true -> run_op unit tr str_none o s1 = (inl not_registered, s1))).
Proof.
  intros tr s0 s1. split; [reflexivity|].
  apply (disconnect_clears_session unit tr str_none s0 s1). reflexivity.
Defined.

Lemma register_stores_response_witness :
  let answer := JObj [("token", JStr "t1"); ("expiresAt", JNum 100)] in
  let tr := const_transport (mkResponse 201 (Some answer)) in
  let s0 := mkSt unit (new_client "http://relay" (mkKeyPair "pk-a" "sk-a") (Some "alice")) tt [] in
  let s1 := snd (register unit tr JNull s0) in
  register unit tr JNull s0 = (inr answer, s1) /\
  (exists resp rs' kvs,
    tr (relay s0)
      (mkRequest POST (relay_url (client s0) ++ "/v1/register") []
         (Some (JObj (register_body (client s0) JNull)))) = (inr resp, rs') /\
    resp_body resp = Some answer /\ answer = JObj kvs /\
    dict_get "token" kvs = Some (_token (client s1)) /\
    dict_get "expiresAt" kvs = Some (_expires_at (client s1))).
Proof.
  intros answer tr s0 s1. split; [reflexivity|].
  apply (register_stores_response unit tr JNull s0 s1 answer). reflexivity.
Defined.

Lemma missing_list_key_defaults_witness :
  let resp := mkResponse 200 (Some (JObj [("ok", JBool true)])) in
  let tr := const_transport resp in
  let s0 := mkSt unit demo_client tt [] in
  py_truthy (_token (client s0)) = true /\
  (forall q, tr (relay s0) q = (inr resp, tt)) /\
  200 <= status_code resp < 300 /\
  resp_body resp = Some (JObj [("ok", JBool true)]) /\
  ((dict_get "peers" [("ok", JBool true)] = None -> fst (peers unit tr str_none s0) = inr (JArr [])) /\
   (dict_get "messages" [("ok", JBool true)] = None ->
      fst (poll_messages unit tr str_none s0) = inr (JArr []))).
Proof.
  intros resp tr s0.
  split; [reflexivity|]. split; [reflexivity|]. split; [cbn; lia|]. split; [reflexivity|].
  apply (missing_list_key_defaults unit tr str_none s0 resp tt); cbn; try reflexivity; lia.
Defined.

Lemma http_error_aborts_witness :
  let resp := mkResponse 409 (Some (JObj [("error", JStr "Conflict")])) in
  let tr := const_transport resp in
  let s0 := mkSt unit demo_client tt [] in
  (forall q, tr (relay s0) q = (inr resp, tt)) /\ 400 <= status_code resp < 600 /\
  (client (snd (run_op unit tr str_none OpDisconnect s0)) = client s0 /\
   ((fst (run_op unit tr str_none OpDisconnect s0) = inl (HTTPError (status_code resp)) /\
     exists q, sent (snd (run_op unit tr str_none OpDisconnect s0)) = (sent s0 ++ [q])%list) \/
    (authenticated OpDisconnect = true /\
     run_op unit tr str_none OpDisconnect s0 = (inl not_registered, s0)))).
Proof.
  intros resp tr s0. split; [reflexivity|]. split; [cbn; lia|].
  apply (http_error_aborts unit tr str_none OpDisconnect s0 resp tt); [reflexivity | cbn; lia].
Defined.

Lemma send_request_and_result_witness :
  let tr := const_transport (mkResponse 200 (Some (JObj [("messageId", JStr "m1")]))) in
  let s0 := mkSt unit demo_client tt [] in
  py_truthy (_token (client s0)) = true /\
  (let body := ([("to", JStr "pk-b"); ("type", JStr "publish"); ("payload", JNull)]
                ++ [("inReplyTo", JStr "m0")])%list in
   let q := mkRequest POST (relay_url (client s0) ++ "/v1/send") (bearer str_none (client s0))
              (Some (JObj body)) in
   sent (snd (send unit tr str_none "pk-b" "publish" JNull (Some "m0") s0)) = (sent s0 ++ [q])%list /\
   (forall resp rs' j, tr (relay s0) q = (inr resp, rs') ->
      200 <= status_code resp < 300 -> resp_body resp = Some j ->
      fst (send unit tr str_none "pk-b" "publish" JNull (Some "m0") s0) = inr j)).
Proof.
  intros tr s0. split; [reflexivity|].
  apply (send_request_and_result unit tr str_none "pk-b" "publish" JNull (Some "m0") s0).
  reflexivity.
Defined.

Lemma poll_drains_fifo_witness :
  let rs := Relay.mkRelay [("pk-a", JNull); ("pk-b", JNull)]
              [("ta", ("pk-a", 100)); ("tb", ("pk-b", 100))] [] 0 0 in
  let a := mkClient "http://relay" (mkKeyPair "pk-a" "sk-a") None (JStr "ta") JNull in
  let b := mkClient "http://relay" (mkKeyPair "pk-b" "sk-b") None (JStr "tb") JNull in
  Relay.lookup "ta" (Relay.sessions rs) = Some ("pk-a", 100) /\
  Relay.lookup "tb" (Relay.sessions rs) = Some ("pk-b", 100) /\
  1 < 100 /\ 2 < 100 /\ 3 < 100 /\ 4 < 100 /\
  Relay.lookup "pk-b" (Relay.registry rs) = Some JNull /\ Relay.queue_of "pk-b" rs = [] /\
  (let tr := Relay.handle (fun _ _ => true) 3600 "http://relay" in
   let sa1 := snd (send Relay.relay tr str_none "pk-b" "publish" (JStr "m1") (Some "m0")
                     (mkSt _ a (Relay.set_clock 1 rs) [])) in
   let sa2 := snd (send Relay.relay tr str_none "pk-b" "publish" (JStr "m2") None
                     (mkSt _ (client sa1) (Relay.set_clock 2 (relay sa1)) (sent sa1))) in
   let pb1 := poll_messages Relay.relay tr str_none (mkSt _ b (Relay.set_clock 3 (relay sa2)) []) in
   let pb2 := poll_messages Relay.relay tr str_none
                (mkSt _ (client (snd pb1)) (Relay.set_clock 4 (relay (snd pb1))) (sent (snd pb1))) in
   exists id1 id2,
     fst pb1 = inr (JArr [Relay.message id1 "pk-a" "pk-b" (JStr "publish") (JStr "m1")
                            (in_reply_to_json (Some "m0")) 1;
                          Relay.message id2 "pk-a" "pk-b" (JStr "publish") (JStr "m2")
                            (in_reply_to_json None) 2]) /\
     fst pb2 = inr (JArr [])).
Proof.
  intros rs a b. do 8 (split; [reflexivity || lia|]).
  apply (poll_drains_fifo (fun _ _ => true) 3600 "http://relay" str_none a b rs "ta" "tb"
           "pk-a" "pk-b" 100 100 JNull); reflexivity || discriminate || lia.
Defined.

(** ** [bytes.hex()] and [generate_key_pair] *)

Lemma bytes_hex_length (bs : list byte) :
  String.length (bytes_hex bs) = (2 * length bs)%nat.
Proof. induction bs as [|b bs IH]; cbn; [reflexivity|]. rewrite IH. lia. Qed.

Lemma hex_val_digit (n : nat) : (n < 16)%nat -> hex_val (hex_digit n) = n.
Proof. intros H. do 16 (destruct n as [|n]; [reflexivity|]). lia. Qed.

Lemma byte_hex_digits_inj (b1 b2 : byte) :
  hex_digit (Nat.div (Byte.to_nat b1) 16) = hex_digit (Nat.div (Byte.to_nat b2) 16) ->
  hex_digit (Nat.modulo (Byte.to_nat b1) 16) = hex_digit (Nat.modulo (Byte.to_nat b2) 16) ->
  b1 = b2.
Proof.
  intros Hq Hr. apply (f_equal hex_val) in Hq, Hr.
  pose proof (Byte.to_nat_bounded b1). pose proof (Byte.to_nat_bounded b2).
  rewrite !hex_val_digit in Hq by (apply Nat.Div0.div_lt_upper_bound; lia).
  rewrite !hex_val_digit in Hr by (apply Nat.mod_upper_bound; lia).
  assert (Hn : Byte.to_nat b1 = Byte.to_nat b2).
  { rewrite (Nat.div_mod_eq (Byte.to_nat b1) 16), (Nat.div_mod_eq (Byte.to_nat b2) 16).
    rewrite Hq, Hr. reflexivity. }
  apply (f_equal Byte.of_nat) in Hn. rewrite !Byte.of_to_nat in Hn. injection Hn as Hn. exact Hn.
Qed.

Lemma bytes_hex_inj (bs1 bs2 : list byte) : bytes_hex bs1 = bytes_hex bs2 -> bs1 = bs2.
Proof.
  revert bs2. induction bs1 as [|b1 bs1 IH]; intros [|b2 bs2] H; cbn in H;
    try discriminate; [reflexivity|].
  injection H as Hq Hr Ht. f_equal; [apply byte_hex_digits_inj; assumption | apply IH; exact Ht].
Qed.

(** [generate_key_pair] writes each key as hex of twice its DER length,
    and loses nothing: two generated key pairs with the same strings have
    the same SPKI and PKCS8 DER encodings. *)
Theorem generate_key_pair_hex_faithful
    (Priv Pub : Type) (pub_of : Priv -> Pub) (spki : Pub -> list byte)
    (pkcs8 : Priv -> list byte) (sk1 sk2 : Priv) :
  let kp1 := generate_key_pair Priv Pub pub_of spki pkcs8 sk1 in
  let kp2 := generate_key_pair Priv Pub pub_of spki pkcs8 sk2 in
  String.length (public_key kp1) = (2 * length (spki (pub_of sk1)))%nat /\
  String.length (private_key kp1) = (2 * length (pkcs8 sk1))%nat /\
  (public_key kp1 = public_key kp2 -> spki (pub_of sk1) = spki (pub_of sk2)) /\
  (private_key kp1 = private_key kp2 -> pkcs8 sk1 = pkcs8 sk2).
Proof.
  cbn. split; [apply bytes_hex_length|]. split; [apply bytes_hex_length|].
  split; apply bytes_hex_inj.
Qed.

(** ** The demo against the spec-modelled relay *)

Ltac run_demo Hab Hba Hka Hkb :=
  unfold demo, demo_body, dbind, dlift, as_alice, as_bob;
  unfold register, peers, send, poll_messages, disconnect, bind, ret, raise, get_self,
    put_self, http, raise_for_status, resp_json, getitem, dict_get_or, _auth_headers;
  cbn;
  repeat (rewrite ?String.eqb_refl, ?Hab, ?Hba, ?Hka, ?Hkb, ?eqb_app_same; cbn);
  unfold Relay.queue_of; cbn;
  repeat (rewrite ?String.eqb_refl, ?Hab, ?Hba, ?Hka, ?Hkb, ?eqb_app_same; cbn).

(** On a relay that starts empty, [demo] runs to completion whenever the
    two generated public keys differ, each private key corresponds to its
    public key and tokens live for a positive time: both clients end
    without a token, the relay holds no session, bob's queue was created
    by alice's message and drained by bob's poll, alice sent four requests
    and bob three. *)
Theorem demo_completes (key_ok : string -> string -> bool) (ttl : Z) (base : string)
    (kpa kpb : KeyPair) (ns : json -> string) :
  public_key kpa <> public_key kpb ->
  key_ok (private_key kpa) (public_key kpa) = true ->
  key_ok (private_key kpb) (public_key kpb) = true -> 0 < ttl ->
  let r := demo Relay.relay (Relay.handle key_ok ttl base) ns base kpa kpb Relay.empty in
  fst r = inr tt /\ _token (d_alice _ (snd r)) = JNull /\ _token (d_bob _ (snd r)) = JNull /\
  Relay.sessions (d_relay _ (snd r)) = [] /\
  Relay.queues (d_relay _ (snd r)) = [(public_key kpb, [])] /\
  length (d_alice_sent _ (snd r)) = 4%nat /\ length (d_bob_sent _ (snd r)) = 3%nat.
Proof.
  destruct kpa as [pka ska], kpb as [pkb skb]. cbn [public_key private_key].
  intros Hne Hka Hkb Httl. destruct ttl as [|p|p]; try lia.
  assert (Hab : String.eqb pka pkb = false) by (apply String.eqb_neq; auto).
  assert (Hba : String.eqb pkb pka = false) by (apply String.eqb_neq; auto).
  run_demo Hab Hba Hka Hkb. repeat split.
Qed.

(** If the two generated public keys are equal, bob's registration takes
    over alice's key, and [demo] stops with [HTTPError 401] at
    [alice.peers()], before any message is sent. *)
Theorem demo_same_key_fails (key_ok : string -> string -> bool) (ttl : Z) (base : string)
    (pk ska skb : string) (ns : json -> string) :
  key_ok ska pk = true -> key_ok skb pk = true -> 0 < ttl ->
  let r := demo Relay.relay (Relay.handle key_ok ttl base) ns base (mkKeyPair pk ska)
             (mkKeyPair pk skb) Relay.empty in
  fst r = inl (HTTPError 401) /\ length (d_alice_sent _ (snd r)) = 2%nat /\
  length (d_bob_sent _ (snd r)) = 1%nat.
Proof.
  intros Hka Hkb Httl. destruct ttl as [|p|p]; try lia.
  assert (Hab : String.eqb pk pk = true) by apply String.eqb_refl.
  run_demo Hab Hab Hka Hkb. repeat split.
Qed.

Lemma demo_completes_witness :
  let ok := fun sk pk => String.eqb sk ("s" ++ pk) in
  "pk-a" <> "pk-b" /\ ok "spk-a" "pk-a" = true /\ ok "spk-b" "pk-b" = true /\ 0 < 3600 /\
  (let r := demo Relay.relay (Relay.handle ok 3600 "http://localhost:8080") str_none
              "http://localhost:8080" (mkKeyPair "pk-a" "spk-a") (mkKeyPair "pk-b" "spk-b")
              Relay.empty in
   fst r = inr tt /\ _token (d_alice _ (snd r)) = JNull /\ _token (d_bob _ (snd r)) = JNull /\
   Relay.sessions (d_relay _ (snd r)) = [] /\
   Relay.queues (d_relay _ (snd r)) = [("pk-b", [])] /\
   length (d_alice_sent _ (snd r)) = 4%nat /\ length (d_bob_sent _ (snd r)) = 3%nat).
Proof.
  intros ok. split; [discriminate|]. split; [reflexivity|]. split; [reflexivity|].
  split; [lia|].
  apply (demo_completes ok 3600 "http://localhost:8080" (mkKeyPair "pk-a" "spk-a")
           (mkKeyPair "pk-b" "spk-b") str_none); reflexivity || discriminate || lia.
Defined.

Lemma demo_same_key_fails_witness :
  let ok := fun sk pk => String.eqb sk ("s" ++ pk) in
  ok "spk" "pk" = true /\ ok "spk" "pk" = true /\ 0 < 3600 /\
  (let r := demo Relay.relay (Relay.handle ok 3600 "http://localhost:8080") str_none
              "http://localhost:8080" (mkKeyPair "pk" "spk") (mkKeyPair "pk" "spk")
              Relay.empty in
   fst r = inl (HTTPError 401) /\ length (d_alice_sent _ (snd r)) = 2%nat /\
   length (d_bob_sent _ (snd r)) = 1%nat).
Proof.
  intros ok. split; [reflexivity|]. split; [reflexivity|]. split; [lia|].
  apply (demo_same_key_fails ok 3600 "http://localhost:8080" "pk" "spk" "spk" str_none);
    reflexivity || lia.
Defined.

Lemma transport_failure_propagates_witness :
  let tr := fun (u : unit) (q : request) => (@inl exn response TransportError, u) in
  let s0 := mkSt unit demo_client tt [] in
  (forall q, tr (relay s0) q = (inl TransportError, tt)) /\
  (client (snd (run_op unit tr str_none OpPoll s0)) = client s0 /\
   (fst (run_op unit tr str_none OpPoll s0) = inl TransportError \/
    (authenticated OpPoll = true /\ run_op unit tr str_none OpPoll s0 = (inl not_registered, s0)))).
Proof.
  intros tr s0. split; [reflexivity|].
  apply (transport_failure_propagates unit tr str_none OpPoll s0 TransportError tt). reflexivity.
Defined.

Lemma register_malformed_answer_no_mutation_witness :
  let resp := mkResponse 200 None in
  let tr := const_transport resp in
  let s0 := mkSt unit demo_client tt [] in
  (forall q, tr (relay s0) q = (inr resp, tt)) /\ 200 <= status_code resp < 300 /\
  ((resp_body resp = None ->
     fst (register unit tr JNull s0) = inl JSONDecodeError /\
     client (snd (register unit tr JNull s0)) = client s0) /\
  (forall j, resp_body resp = Some j -> (forall kvs, j <> JObj kvs) ->
     fst (register unit tr JNull s0) = inl TypeError /\
     client (snd (register unit tr JNull s0)) = client s0) /\
  (forall kvs, resp_body resp = Some (JObj kvs) -> dict_get "token" kvs = None ->
     fst (register unit tr JNull s0) = inl (KeyError "token") /\
     client (snd (register unit tr JNull s0)) = client s0)).
Proof.
  intros resp tr s0. split; [reflexivity|]. split; [cbn; lia|].
  apply (register_malformed_answer_no_mutation unit tr JNull s0 resp tt); [reflexivity | cbn; lia].
Defined.

Lemma list_getters_answer_shape_witness :
  let resp := mkResponse 200 (Some (JObj [("peers", JNum 3); ("messages", JArr [])])) in
  let tr := const_transport resp in
  let s0 := mkSt unit demo_client tt [] in
  py_truthy (_token (client s0)) = true /\
  (forall q, tr (relay s0) q = (inr resp, tt)) /\ 200 <= status_code resp < 300 /\
  ((forall j, resp_body resp = Some j -> (forall kvs, j <> JObj kvs) ->
     fst (peers unit tr str_none s0) = inl AttributeError /\
     fst (poll_messages unit tr str_none s0) = inl AttributeError) /\
  (forall kvs v, resp_body resp = Some (JObj kvs) -> dict_get "peers" kvs = Some v ->
     fst (peers unit tr str_none s0) = inr v) /\
  (forall kvs v, resp_body resp = Some (JObj kvs) -> dict_get "messages" kvs = Some v ->
     fst (poll_messages unit tr str_none s0) = inr v)).
Proof.
  intros resp tr s0. split; [reflexivity|]. split; [reflexivity|]. split; [cbn; lia|].
  apply (list_getters_answer_shape unit tr str_none s0 resp tt); [reflexivity | reflexivity | cbn; lia].
Defined.

Lemma disconnect_ignores_body_witness :
  let resp := mkResponse 204 None in
  let tr := const_transport resp in
  let s0 := mkSt unit demo_client tt [] in
  py_truthy (_token (client s0)) = true /\
  (forall q, tr (relay s0) q = (inr resp, tt)) /\
  (status_code resp < 400 \/ 600 <= status_code resp) /\
  (fst (disconnect unit tr str_none s0) = inr tt /\
   client (snd (disconnect unit tr str_none s0)) =
     mkClient (relay_url (client s0)) (key_pair (client s0)) (name (client s0)) JNull JNull).
Proof.
  intros resp tr s0. split; [reflexivity|]. split; [reflexivity|]. split; [left; cbn; lia|].
  apply (disconnect_ignores_body unit tr str_none s0 resp tt);
    [reflexivity | reflexivity | left; cbn; lia].
Defined.

Lemma register_falsy_token_unusable_witness :
  let kvs := [("token", JStr ""); ("expiresAt", JNum 100)] in
  let resp := mkResponse 200 (Some (JObj kvs)) in
  let tr := const_transport resp in
  let s0 := mkSt unit (new_client "http://relay" (mkKeyPair "pk-a" "sk-a") None) tt [] in
  (forall q, tr (relay s0) q = (inr resp, tt)) /\ 200 <= status_code resp < 300 /\
  resp_body resp = Some (JObj kvs) /\
  dict_get "token" kvs = Some (JStr "") /\ dict_get "expiresAt" kvs = Some (JNum 100) /\
  py_truthy (JStr "") = false /\
  (fst (register unit tr JNull s0) = inr (JObj kvs) /\
   forall o, authenticated o = true ->
     let s' := snd (register unit tr JNull s0) in
     run_op unit tr str_none o s' = (inl not_registered, s')).
Proof.
  intros kvs resp tr s0. split; [reflexivity|]. split; [cbn; lia|].
  do 4 (split; [reflexivity|]).
  apply (register_falsy_token_unusable unit tr str_none JNull s0 resp tt kvs (JStr "") (JNum 100));
    try reflexivity. cbn; lia.
Defined.

Lemma register_then_call_uses_token_witness :
  let kvs := [("token", JStr "t1"); ("expiresAt", JNum 100)] in
  let tr := const_transport (mkResponse 200 (Some (JObj kvs))) in
  let s0 := mkSt unit (new_client "http://relay" (mkKeyPair "pk-a" "sk-a") None) tt [] in
  let s1 := snd (register unit tr JNull s0) in
  register unit tr JNull s0 = (inr (JObj kvs), s1) /\
  (exists kvs', JObj kvs = JObj kvs' /\ dict_get "token" kvs' = Some (JStr "t1")) /\
  "t1" <> "" /\ authenticated OpPeers = true /\
  (exists q, sent (snd (run_op unit tr str_none OpPeers s1)) = (sent s1 ++ [q])%list /\
             req_headers q = [("Authorization", "Bearer " ++ "t1")]).
Proof.
  intros kvs tr s0 s1. split; [reflexivity|]. split; [eexists; split; reflexivity|].
  split; [discriminate|]. split; [reflexivity|].
  apply (register_then_call_uses_token unit tr str_none JNull s0 s1 (JObj kvs) "t1" OpPeers).
  - reflexivity.
  - eexists; split; reflexivity.
  - discriminate.
  - reflexivity.
Defined.
